(** * The reconciliation pipeline of the trader dashboard (src/app.py)

    The script loads two CSV files with pandas, reduces their dates to a
    common calendar-date key, inner-joins them on that key, derives the
    [Win] column, and the page layout reads four figures off the joined
    frame: total PnL, trade count, win rate and the cumulative PnL line.

    Conventions of the embedding.
    - A frame is a list of typed rows together with its column labels.  The
      schema is the one the script reads: [Timestamp IST], [Closed PnL],
      [Side], [Coin] in the trade log, [date], [classification] in the
      sentiment index.  Other columns of the files are carried along by
      pandas and read by nothing; they are left out.
    - A cell as [read_csv] yields it is a number, a missing value ([NaN]) or
      a string.  Numbers are exact rationals ([Qc]): sums are the
      mathematical sums, binary64 rounding is outside the model.
    - Python exceptions are values of [exn]; code that may raise returns a
      [result]; the module-level script runs in a state-and-exception monad
      over the [World] (the files and the console).
    - pandas and numpy are library code.  The two date conversions are
      parameters of the script.  The sort behind [sort_values] is a
      parameter as well; its default kind, quicksort, promises ascending
      order and nothing about equal keys, and [Numpy] transcribes the
      algorithm numpy runs on an array of dates.  [merge], [sum], [cumsum],
      [mean] and [apply] are written out as pandas documents them. *)

From Stdlib Require Import List String Ascii Bool Arith ZArith QArith Qcanon.
From Stdlib Require Import Lia Permutation Sorted.
From Stdlib Require DecimalString DecimalNat.
Import ListNotations.
Local Close Scope Qc_scope.
Local Close Scope Q_scope.
Local Open Scope nat_scope.
Local Open Scope string_scope.
Local Open Scope list_scope.

(** ** Cells, dates, exceptions *)

(** [datetime.date]: compared as the tuple (year, month, day). *)
Record calendar_date : Set := mkDate { year : Z; month : Z; day : Z }.

Definition date_compare (a b : calendar_date) : comparison :=
  match Z.compare (year a) (year b) with
  | Eq => match Z.compare (month a) (month b) with
          | Eq => Z.compare (day a) (day b)
          | c => c
          end
  | c => c
  end.

Definition date_eqb (a b : calendar_date) : bool :=
  match date_compare a b with Eq => true | _ => false end.

Definition date_ltb (a b : calendar_date) : bool :=
  match date_compare a b with Lt => true | _ => false end.

Definition date_leb (a b : calendar_date) : bool := negb (date_ltb b a).

(** A cell of a frame read by [pd.read_csv]. *)
Inductive value : Type :=
| Num (q : Qc)
| NaN
| Str (s : string).

(** The join key [Date_Clean]: [None] is pandas' [NaT]. *)
Definition key := option calendar_date.

Definition Qcltb (x y : Qc) : bool :=
  match (x ?= y)%Qc with Lt => true | _ => false end.

Definition qz (z : Z) : Qc := Q2Qc (inject_Z z).

Inductive exn : Set :=
| FileNotFoundError (path : string)
| ParserError
| KeyError (label : string)
| TypeError
| ValueError
| AttributeError
| IndexError.

Inductive result (A : Type) : Type :=
| Ok (a : A)
| Raise (e : exn).
Arguments Ok {A} a.
Arguments Raise {A} e.

Definition rbind {A B} (r : result A) (k : A -> result B) : result B :=
  match r with
  | Ok a => k a
  | Raise e => Raise e
  end.

Declare Scope result_scope.
Delimit Scope result_scope with result.
Notation "x <- c ;; k" := (rbind c (fun x => k))
  (at level 61, c at next level, right associativity) : result_scope.

(** ** The two input tables *)

Record TradeRecord : Type := mkTrade
  { Timestamp_IST : value; Closed_PnL : value; Side : value; Coin : value }.

Record SentimentRecord : Type := mkSentiment
  { date : value; classification : value }.

(** What [pd.read_csv] returns for a path: a frame with one of the two
    schemas. *)
Inductive CsvFrame : Type :=
| TradeLog (records : list TradeRecord)
| SentimentIndex (records : list SentimentRecord).

(** The row of the merged frame, with [Win] once it is assigned. *)
Record JoinedRecord : Type := mkJoined
  { trade : TradeRecord;
    Date_Clean : key;
    sentiment : SentimentRecord;
    Win : Z }.

Record DataFrame : Type := mkFrame
  { columns : list string; rows : list JoinedRecord }.

(** ** The world the script runs in *)

Record World : Type := mkWorld
  { files : string -> result CsvFrame;
    stdout : list string }.

(** State and exceptions: a raise keeps the state reached so far. *)
Definition M (A : Type) : Type := World -> result A * World.

Definition ret {A} (a : A) : M A := fun w => (Ok a, w).

Definition bind {A B} (m : M A) (k : A -> M B) : M B :=
  fun w => match m w with
           | (Ok a, w') => k a w'
           | (Raise e, w') => (Raise e, w')
           end.

Definition lift {A} (r : result A) : M A := fun w => (r, w).

Definition try_except {A} (body : M A) (handler : exn -> M A) : M A :=
  fun w => match body w with
           | (Ok a, w') => (Ok a, w')
           | (Raise e, w') => handler e w'
           end.

Declare Scope script_scope.
Delimit Scope script_scope with script.
Notation "x <- c ;; k" := (bind c (fun x => k))
  (at level 61, c at next level, right associativity) : script_scope.
Notation "c ;;; k" := (bind c (fun _ => k))
  (at level 61, right associativity) : script_scope.

Definition read_csv (path : string) : M CsvFrame :=
  fun w => (files w path, w).

Definition print (line : string) : M unit :=
  fun w => (Ok tt, mkWorld (files w) (stdout w ++ [line])).

Definition str (e : exn) : string :=
  match e with
  | FileNotFoundError path => "No such file or directory: " ++ path
  | ParserError => "Error tokenizing data"
  | KeyError label => label
  | TypeError => "'>' not supported between instances of 'str' and 'int'"
  | ValueError => "Length of values does not match length of index"
  | AttributeError => "Can only use .dt accessor with datetimelike values"
  | IndexError => "index out of bounds"
  end.

(** ** 1. Data processing *)

(** [df_hist['Timestamp IST']]: a [KeyError] unless the frame read has the
    trade-log columns. *)
Definition as_trade_log (df : CsvFrame) : result (list TradeRecord) :=
  match df with
  | TradeLog records => Ok records
  | SentimentIndex _ => Raise (KeyError "Timestamp IST")
  end.

(** [df_fg['date']]. *)
Definition as_sentiment_index (df : CsvFrame) : result (list SentimentRecord) :=
  match df with
  | SentimentIndex records => Ok records
  | TradeLog _ => Raise (KeyError "date")
  end.

(** [frame['Date_Clean'] = dates].  [to_datetime] keeps the index of the
    column it converts, so there is one date per row; a conversion that
    answers another number of dates is no pandas conversion, and the model
    ends the [try] body on it. *)
Definition assign_Date_Clean {R : Type} (records : list R) (dates : list key)
  : result (list (R * key)) :=
  if Nat.eqb (List.length dates) (List.length records)
  then Ok (combine records dates)
  else Raise ValueError.

(** Equality of join keys as [pd.merge] groups them: two dates match when
    they are the same day, and the null keys of both frames form one group,
    so null matches null and nothing else (the pandas documentation of
    [merge] warns that rows whose key is null in both frames are matched
    against each other, unlike in SQL). *)
Definition key_eqb (a b : key) : bool :=
  match a, b with
  | Some x, Some y => date_eqb x y
  | None, None => true
  | _, _ => false
  end.

(** A row of [pd.merge(df_hist, df_fg, on='Date_Clean', how='inner')]. *)
Record MergedRecord : Type := mkMerged
  { left : TradeRecord; on_key : key; right : SentimentRecord }.

(** [how='inner'] keeps the order of the left keys, as documented; a left
    row is paired with every right row of its key, in the right frame's
    order. *)
Definition merge (df_hist : list (TradeRecord * key))
  (df_fg : list (SentimentRecord * key)) : list MergedRecord :=
  flat_map
    (fun l =>
       map (fun r => mkMerged (fst l) (snd l) (fst r))
         (filter (fun r => key_eqb (snd l) (snd r)) df_fg))
    df_hist.

(** [x > 0] on a cell: false on NaN, a [TypeError] on a string. *)
Definition gt0 (x : value) : result bool :=
  match x with
  | Num q => Ok (Qcltb 0 q)
  | NaN => Ok false
  | Str _ => Raise TypeError
  end.

(** [lambda x: 1 if x > 0 else 0]. *)
Definition win_lambda (x : value) : result Z :=
  (b <- gt0 x ;; Ok (if b then 1%Z else 0%Z))%result.

(** [Series.apply]: the function on every element, in order; the first
    exception ends it. *)
Fixpoint apply {A B : Type} (f : A -> result B) (s : list A) : result (list B) :=
  match s with
  | [] => Ok []
  | x :: s' => (y <- f x ;; ys <- apply f s' ;; Ok (y :: ys))%result
  end.

(** [df['Win'] = wins]. *)
Definition assign_Win (df : list MergedRecord) (wins : list Z) : list JoinedRecord :=
  map (fun p => mkJoined (left (fst p)) (on_key (fst p)) (right (fst p)) (snd p))
    (combine df wins).

Definition merged_columns : list string :=
  ["Timestamp IST"; "Closed PnL"; "Side"; "Coin"; "Date_Clean"; "date";
   "classification"].

(** [pd.DataFrame(columns=[...])]: the frame substituted when loading fails. *)
Definition empty_frame : DataFrame :=
  mkFrame ["Date_Clean"; "classification"; "Closed PnL"; "Win"; "Side"; "Coin"] [].

Section DataProcessing.

(** [pd.to_datetime(col, format='%d-%m-%Y %H:%M', errors='coerce').dt.date]
    and [pd.to_datetime(col, errors='coerce').dt.date], each from a column
    to a column. *)
Variable to_datetime_hist : list value -> result (list key).
Variable to_datetime_fg : list value -> result (list key).

(** Lines 14-29: the body of the [try]. *)
Definition try_body : M DataFrame :=
  (df_hist <- read_csv "historical_data_compressed.csv" ;;
   df_fg <- read_csv "fear_greed_index.csv" ;;
   hist <- lift (as_trade_log df_hist) ;;
   hist_dates <- lift (to_datetime_hist (map Timestamp_IST hist)) ;;
   df_hist <- lift (assign_Date_Clean hist hist_dates) ;;
   fg <- lift (as_sentiment_index df_fg) ;;
   fg_dates <- lift (to_datetime_fg (map date fg)) ;;
   df_fg <- lift (assign_Date_Clean fg fg_dates) ;;
   let df := merge df_hist df_fg in
   wins <- lift (apply win_lambda (map (fun r => Closed_PnL (left r)) df)) ;;
   let df := mkFrame (merged_columns ++ ["Win"]) (assign_Win df wins) in
   print "✅ Data Loaded Successfully!" ;;;
   ret df)%script.

(** Lines 11-36. *)
Definition data_processing : M DataFrame :=
  try_except try_body
    (fun e =>
       (print ("❌ Error Loading Data: " ++ str e) ;;;
        ret empty_frame)%script).

End DataProcessing.

(** ** 3. The figures the layout reads off [df] *)

Definition has_column (df : DataFrame) (label : string) : bool :=
  existsb (String.eqb label) (columns df).

(** [df[label]]: a [KeyError] on a label the frame does not have. *)
Definition getitem {A : Type} (df : DataFrame) (label : string)
  (field : JoinedRecord -> A) : result (list A) :=
  if has_column df label then Ok (map field (rows df)) else Raise (KeyError label).

(** [Series.sum()] skips missing values; nothing to add gives 0. *)
Fixpoint nansum (acc : Qc) (s : list value) : result Qc :=
  match s with
  | [] => Ok acc
  | Num q :: s' => nansum (acc + q)%Qc s'
  | NaN :: s' => nansum acc s'
  | Str _ :: _ => Raise TypeError
  end.

Definition Series_sum (s : list value) : result Qc := nansum 0%Qc s.



(** [Series.mean()] of an integer column: NaN on an empty one. *)
Definition Series_mean (s : list Z) : value :=
  match s with
  | [] => NaN
  | _ => Num (qz (fold_right Z.add 0%Z s) / qz (Z.of_nat (List.length s)))%Qc
  end.

(** [df['Closed PnL'].sum()]. *)
Definition totalPnl (df : DataFrame) : result Qc :=
  (s <- getitem df "Closed PnL" (fun r => Closed_PnL (trade r)) ;; Series_sum s)%result.

(** [len(df)]. *)
Definition tradeCount (df : DataFrame) : nat := List.length (rows df).

(** [df['Win'].mean()]. *)
Definition winRate (df : DataFrame) : result value :=
  (s <- getitem df "Win" Win ;; Ok (Series_mean s))%result.





Section SortValues.

(** [ndarray.argsort(kind='quicksort')] on an array of dates. *)
Variable argsort : list calendar_date -> list nat.




End SortValues.




(** ** numpy's argsort of an object array, [kind='quicksort']

    [npy_aquicksort]: an introsort on the index array [tosort], comparing
    the dates the indices point at.  Ranges longer than [SMALL_QUICKSORT]
    are partitioned around a median of three; shorter ones are insertion
    sorted.  The heap-sort fallback of a too deep partitioning is not
    transcribed: the model answers [None] there. *)
Module Numpy.





Section Aquicksort.

Variable v : list calendar_date.












End Aquicksort.


End Numpy.

(** ** An instance of the date conversions

    For concrete runs: the zero-padded form of each of the two formats, with
    the calendar checked; any other cell is coerced to the null date.  The
    theorems below hold for every pair of conversions. *)
Module Sample.

Definition digit (c : ascii) : option Z :=
  let n := nat_of_ascii c in
  if Nat.leb 48 n && Nat.leb n 57 then Some (Z.of_nat (n - 48)) else None.

Definition number (cs : list ascii) : option Z :=
  fold_left
    (fun acc c =>
       match acc, digit c with
       | Some a, Some d => Some (10 * a + d)%Z
       | _, _ => None
       end)
    cs (Some 0%Z).

Definition is_leap (y : Z) : bool :=
  ((y mod 4 =? 0) && negb (y mod 100 =? 0) || (y mod 400 =? 0))%Z.

Definition days_in_month (y m : Z) : Z :=
  if (m =? 2)%Z then (if is_leap y then 29 else 28)%Z
  else if ((m =? 4) || (m =? 6) || (m =? 9) || (m =? 11))%Z then 30%Z
  else 31%Z.

Definition valid_date (y m d : Z) : bool :=
  ((1 <=? y) && (1 <=? m) && (m <=? 12) && (1 <=? d) && (d <=? days_in_month y m))%Z.

Definition make_date (y m d : option Z) : key :=
  match y, m, d with
  | Some y, Some m, Some d =>
      if valid_date y m d then Some (mkDate y m d) else None
  | _, _, _ => None
  end.

Definition in_range (x : option Z) (hi : Z) : bool :=
  match x with
  | Some n => (n <=? hi)%Z
  | None => false
  end.

(** ['%d-%m-%Y %H:%M'] then [.date()]. *)
Definition strptime_dmY_HM (s : string) : key :=
  match list_ascii_of_string s with
  | [d1; d2; "-"%char; m1; m2; "-"%char; y1; y2; y3; y4; " "%char;
     h1; h2; ":"%char; n1; n2] =>
      if in_range (number [h1; h2]) 23 && in_range (number [n1; n2]) 59
      then make_date (number [y1; y2; y3; y4]) (number [m1; m2]) (number [d1; d2])
      else None
  | _ => None
  end.

(** ['%Y-%m-%d']. *)
Definition strptime_Ymd (s : string) : key :=
  match list_ascii_of_string s with
  | [y1; y2; y3; y4; "-"%char; m1; m2; "-"%char; d1; d2] =>
      make_date (number [y1; y2; y3; y4]) (number [m1; m2]) (number [d1; d2])
  | _ => None
  end.

Definition coerce (parse : string -> key) (x : value) : key :=
  match x with
  | Str s => parse s
  | _ => None
  end.

Definition to_datetime_hist (col : list value) : result (list key) :=
  Ok (map (coerce strptime_dmY_HM) col).

Definition to_datetime_fg (col : list value) : result (list key) :=
  Ok (map (coerce strptime_Ymd) col).

Definition data_processing : M DataFrame :=
  data_processing to_datetime_hist to_datetime_fg.

End Sample.

(** * Definitions for the statements *)

(** ** The frame a run ends with *)

(** The spec's [win]: true iff [closedPnl > 0]. *)
Definition is_win (x : value) : bool :=
  match x with
  | Num q => Qcltb 0 q
  | _ => false
  end.

Definition win_of (x : value) : Z := if is_win x then 1%Z else 0%Z.

Definition is_str (x : value) : bool :=
  match x with
  | Str _ => true
  | _ => false
  end.

(** The joined row of a merged row: [Win] is computed from [Closed PnL]. *)
Definition with_Win (m : MergedRecord) : JoinedRecord :=
  mkJoined (left m) (on_key m) (right m) (win_of (Closed_PnL (left m))).

Definition hist_path : string := "historical_data_compressed.csv".
Definition fg_path : string := "fear_greed_index.csv".

(** A run whose [try] body went through: the two frames read, their
    converted dates, and the joined frame they give. *)
Inductive Loaded (to_datetime_hist to_datetime_fg : list value -> result (list key))
  (w : World) (df : DataFrame) : Prop :=
| Loaded_intro (hist : list TradeRecord) (hist_dates : list key)
    (fg : list SentimentRecord) (fg_dates : list key) :
    files w hist_path = Ok (TradeLog hist) ->
    files w fg_path = Ok (SentimentIndex fg) ->
    to_datetime_hist (map Timestamp_IST hist) = Ok hist_dates ->
    List.length hist_dates = List.length hist ->
    to_datetime_fg (map date fg) = Ok fg_dates ->
    List.length fg_dates = List.length fg ->
    Forall (fun m => is_str (Closed_PnL (left m)) = false)
      (merge (combine hist hist_dates) (combine fg fg_dates)) ->
    df = mkFrame (merged_columns ++ ["Win"])
           (map with_Win (merge (combine hist hist_dates) (combine fg fg_dates))) ->
    Loaded to_datetime_hist to_datetime_fg w df.

Definition said (w : World) (line : string) : World :=
  mkWorld (files w) (stdout w ++ [line]).

(** ** Quantities the statements speak of *)



(** The number of winning rows. *)
Definition wins (rs : list JoinedRecord) : nat :=
  List.length (filter (fun r => is_win (Closed_PnL (trade r))) rs).










(** The order of keys in [sort_values]: ascending, the null date last. *)
Definition key_leb (a b : key) : bool :=
  match a, b with
  | Some x, Some y => date_leb x y
  | Some _, None => true
  | None, Some _ => false
  | None, None => true
  end.

(** The claim's sort: a row goes before the first row that is not earlier
    than it, so rows of one date keep their order. *)
Fixpoint insert_row (r : JoinedRecord) (rs : list JoinedRecord) : list JoinedRecord :=
  match rs with
  | [] => [r]
  | x :: rs' =>
      if key_leb (Date_Clean r) (Date_Clean x) then r :: rs
      else x :: insert_row r rs'
  end.

Definition stable_sort (rs : list JoinedRecord) : list JoinedRecord :=
  fold_right insert_row [] rs.


Definition is_nan (x : value) : bool :=
  match x with
  | NaN => true
  | _ => false
  end.

(** The number of rows whose [Closed PnL] is missing. *)
Definition missing (rs : list JoinedRecord) : nat :=
  List.length (filter (fun r => is_nan (Closed_PnL (trade r))) rs).

(** ** Concrete inputs *)

Module Scenario.

Definition trade_on (timestamp : string) (pnl : value) : TradeRecord :=
  mkTrade (Str timestamp) pnl (Str "BUY") (Str "BTC").

Definition mood (day label : string) : SentimentRecord :=
  mkSentiment (Str day) (Str label).

(** A world holding the two files and nothing else. *)
Definition world_of (hist : list TradeRecord) (fg : list SentimentRecord) : World :=
  mkWorld
    (fun path =>
       if String.eqb path hist_path then Ok (TradeLog hist)
       else if String.eqb path fg_path then Ok (SentimentIndex fg)
       else Raise (FileNotFoundError path))
    [].

(** The frame a run of the script ends with. *)
Definition frame_of (w : World) : DataFrame :=
  match fst (Sample.data_processing w) with
  | Ok df => df
  | Raise _ => empty_frame
  end.

(** Three trades over two days, sentiment for the first day and a third. *)
Definition trades : list TradeRecord :=
  [trade_on "01-02-2021 10:00" (Num (qz 100));
   trade_on "01-02-2021 11:00" (Num (qz (-30)));
   trade_on "02-02-2021 09:30" (Num (qz 50))].

Definition sentiments : list SentimentRecord :=
  [mood "2021-02-01" "Fear"; mood "2021-02-03" "Greed"].

Definition world : World := world_of trades sentiments.

Definition feb1 : calendar_date := mkDate 2021 2 1.

Definition first_row : JoinedRecord :=
  mkJoined (trade_on "01-02-2021 10:00" (Num (qz 100))) (Some feb1)
    (mood "2021-02-01" "Fear") 1.

Definition second_row : JoinedRecord :=
  mkJoined (trade_on "01-02-2021 11:00" (Num (qz (-30)))) (Some feb1)
    (mood "2021-02-01" "Fear") 0.

End Scenario.

Module NullDates.

(** A trade stamped in another format and a sentiment row without a date:
    both conversions coerce to the null date. *)
Definition trades : list TradeRecord :=
  [Scenario.trade_on "2021/02/01 10:00" (Num (qz 5))].

Definition sentiments : list SentimentRecord :=
  [Scenario.mood "unknown" "Fear"].

Definition world : World := Scenario.world_of trades sentiments.


End NullDates.

Module Missing.



End Missing.

Module MissingPnl.

(** The later of two trades has no [Closed PnL]. *)
Definition trades : list TradeRecord :=
  [Scenario.trade_on "01-02-2021 10:00" (Num (qz 100));
   Scenario.trade_on "02-02-2021 09:30" NaN].

Definition sentiments : list SentimentRecord :=
  [Scenario.mood "2021-02-01" "Fear"; Scenario.mood "2021-02-02" "Greed"].

Definition world : World := Scenario.world_of trades sentiments.

End MissingPnl.

Module SameDay.

(** Eighteen trades of one day, with PnL 1, 2, ..., 18 in file order. *)
Definition trades : list TradeRecord :=
  map (fun i => Scenario.trade_on "01-02-2021 10:00" (Num (qz (Z.of_nat i))))
    (seq 1 18).

Definition sentiments : list SentimentRecord :=
  [Scenario.mood "2021-02-01" "Fear"].

Definition world : World := Scenario.world_of trades sentiments.

End SameDay.

Module OneMissing.

(** A winning trade and a trade without [Closed PnL], on one day. *)
Definition trades : list TradeRecord :=
  [Scenario.trade_on "01-02-2021 10:00" (Num (qz 100));
   Scenario.trade_on "01-02-2021 11:00" NaN].

Definition world : World := Scenario.world_of trades Scenario.sentiments.

End OneMissing.

(** * The rest of the layout *)

(** ** The metric cards (lines 85-104) *)

(** A comma after every three characters, as long as more follow. *)
Fixpoint group3 (l : list ascii) : list ascii :=
  match l with
  | a :: b :: c :: ((_ :: _) as more) => a :: b :: c :: ","%char :: group3 more
  | _ => l
  end.

(** The decimal digits of a natural number. *)
Definition digits (n : nat) : list ascii :=
  list_ascii_of_string (DecimalString.NilEmpty.string_of_uint (Nat.to_uint n)).

(** [f"{n:,}"]: the digits, grouped by three from the right. *)
Definition format_comma (n : nat) : string :=
  string_of_list_ascii (List.rev (group3 (List.rev (digits n)))).



Section MetricCards.

(** Python's fixed-point formatting of a float, [f"{x:,.2f}"] and
    [f"{x:.1f}"], on a number. *)
Variable format_2f : Qc -> string.
Variable format_1f : Qc -> string.






End MetricCards.

(** ** The win rate by sentiment (line 131) *)

Definition notna (x : value) : bool :=
  match x with
  | NaN => false
  | _ => true
  end.

(** The order pandas sorts group labels in: numbers by value, then strings
    by code point, missing values last. *)
Definition label_compare (a b : value) : comparison :=
  match a, b with
  | Num p, Num q => (p ?= q)%Qc
  | Num _, _ => Lt
  | Str _, Num _ => Gt
  | Str s, Str t => String.compare s t
  | Str _, NaN => Lt
  | NaN, NaN => Eq
  | NaN, _ => Gt
  end.

Definition label_eqb (a b : value) : bool :=
  match label_compare a b with Eq => true | _ => false end.

(** A label into the sorted labels seen so far, once. *)
Fixpoint insert_label (k : value) (ks : list value) : list value :=
  match ks with
  | [] => [k]
  | x :: ks' =>
      match label_compare k x with
      | Lt => k :: ks
      | Eq => ks
      | Gt => x :: insert_label k ks'
      end
  end.

(** The group labels of [groupby(by)]: the distinct non-null values of the
    column, sorted ([sort=True], [dropna=True]). *)
Definition group_labels (by_ : list value) : list value :=
  fold_right insert_label [] (filter notna by_).

(** The [Win] values of the rows of one label, in row order. *)
Definition group_of (k : value) (by_ : list value) (win : list Z) : list Z :=
  map snd (filter (fun p => label_eqb k (fst p)) (combine by_ win)).

(** [df.groupby('classification')['Win'].mean().reset_index()]: one row per
    label, the label and the mean of [Win] over its rows. *)
Definition groupby_classification_Win_mean (df : DataFrame)
  : result (list (value * value)) :=
  (by_ <- getitem df "classification" (fun r => classification (sentiment r)) ;;
   win <- getitem df "Win" Win ;;
   Ok (map (fun k => (k, Series_mean (group_of k by_ win))) (group_labels by_)))%result.

(** ** Definitions for the statements about the rest *)

Definition not_comma (c : ascii) : bool := negb (Ascii.eqb c ","%char).

Definition strip_commas (s : string) : string :=
  string_of_list_ascii (filter not_comma (list_ascii_of_string s)).

(** The pieces of a list between its commas. *)
Fixpoint split_commas (l : list ascii) : list (list ascii) :=
  match l with
  | [] => [[]]
  | c :: l' =>
      if Ascii.eqb c ","%char then [] :: split_commas l'
      else match split_commas l' with
           | piece :: pieces => (c :: piece) :: pieces
           | [] => [[c]]
           end
  end.


(** The joined rows of one label. *)
Definition rows_of_label (k : value) (rs : list JoinedRecord) : list JoinedRecord :=
  filter (fun r => label_eqb k (classification (sentiment r))) rs.




Module TextPnl.

(** The second trade has a dash where its Closed PnL should be. *)
Definition trades : list TradeRecord :=
  [Scenario.trade_on "01-02-2021 10:00" (Num (qz 100));
   Scenario.trade_on "01-02-2021 11:00" (Str "-")].

Definition world : World := Scenario.world_of trades Scenario.sentiments.

End TextPnl.

Module TwoMoods.

(** Two sentiment rows for the first day. *)
Definition sentiments : list SentimentRecord :=
  [Scenario.mood "2021-02-01" "Fear"; Scenario.mood "2021-02-01" "Greed"].

Definition world : World := Scenario.world_of Scenario.trades sentiments.

End TwoMoods.

Module NoMood.

(** A sentiment index without rows. *)
Definition world : World := Scenario.world_of Scenario.trades [].

End NoMood.


Module Gains.

(** No trade at a loss: two gains and a trade closed flat. *)
Definition trades : list TradeRecord :=
  [Scenario.trade_on "03-02-2021 10:00" (Num (qz 50));
   Scenario.trade_on "01-02-2021 11:00" (Num (qz 0));
   Scenario.trade_on "01-02-2021 09:30" (Num (qz 100))].

Definition world : World := Scenario.world_of trades Scenario.sentiments.

End Gains.

Definition label_lt (a b : value) : Prop := label_compare a b = Lt.



(** * Properties *)

(** ** Dates and keys *)

Lemma date_compare_eq (a b : calendar_date) : date_compare a b = Eq <-> a = b.
Proof.
  destruct a as [y1 m1 d1], b as [y2 m2 d2]; unfold date_compare; simpl.
  split.
  - destruct (Z.compare_spec y1 y2); try discriminate.
    destruct (Z.compare_spec m1 m2); try discriminate.
    destruct (Z.compare_spec d1 d2); try discriminate.
    intros _; congruence.
  - intros E; injection E as -> -> ->. now rewrite !Z.compare_refl.
Qed.




Lemma date_leb_refl (a : calendar_date) : date_leb a a = true.
Proof.
  unfold date_leb, date_ltb.
  now rewrite (proj2 (date_compare_eq a a) eq_refl).
Qed.

(** ** The error monad *)

Lemma rbind_Ok {A B} (r : result A) (k : A -> result B) (b : B) :
  rbind r k = Ok b -> exists a, r = Ok a /\ k a = Ok b.
Proof. destruct r; simpl; [eauto | discriminate]. Qed.

Ltac inv_rbind H :=
  let a := fresh "x" in
  let E := fresh "E" in
  apply rbind_Ok in H; destruct H as (a & E & H).

Lemma apply_Ok_Forall2 {A B} (f : A -> result B) (s : list A) (ys : list B) :
  apply f s = Ok ys -> Forall2 (fun x y => f x = Ok y) s ys.
Proof.
  revert ys; induction s as [|x s IH]; simpl; intros ys H.
  - injection H as <-. constructor.
  - inv_rbind H. inv_rbind H. injection H as <-. constructor; auto.
Qed.


(** ** The Win column *)

Lemma win_lambda_Ok (x : value) (w : Z) :
  win_lambda x = Ok w -> is_str x = false /\ w = win_of x.
Proof.
  destruct x; simpl; intros H; try discriminate;
    injection H as <-; split; reflexivity.
Qed.

Lemma apply_win_lambda_Ok (s : list value) (wins : list Z) :
  apply win_lambda s = Ok wins ->
  wins = map win_of s /\ Forall (fun x => is_str x = false) s.
Proof.
  intros H. apply apply_Ok_Forall2 in H.
  induction H as [|x w s ws Hx _ IH]; simpl.
  - split; constructor.
  - apply win_lambda_Ok in Hx. destruct Hx as [Hs ->], IH as [-> IH].
    split; [reflexivity | constructor; assumption].
Qed.

Lemma assign_Win_map (df : list MergedRecord) :
  assign_Win df (map win_of (map (fun r => Closed_PnL (left r)) df)) = map with_Win df.
Proof.
  unfold assign_Win. induction df as [|m df IH]; simpl; [reflexivity|].
  now rewrite IH.
Qed.

(** ** What a run of the data processing yields *)

Section Runs.

Variable to_datetime_hist : list value -> result (list key).
Variable to_datetime_fg : list value -> result (list key).

(** The script always ends with a frame: the joined one, or the empty one
    after some exception. *)
Lemma data_processing_cases (w : World) :
  (exists df, Loaded to_datetime_hist to_datetime_fg w df /\
     data_processing to_datetime_hist to_datetime_fg w
     = (Ok df, said w "✅ Data Loaded Successfully!"))
  \/ (exists e,
        data_processing to_datetime_hist to_datetime_fg w
        = (Ok empty_frame, said w ("❌ Error Loading Data: " ++ str e))).
Proof.
  unfold data_processing, try_except, try_body, bind, read_csv, lift, print, ret.
  fold hist_path; fold fg_path.
  destruct (files w hist_path) as [f1|e1] eqn:F1; [|right; exists e1; reflexivity].
  destruct (files w fg_path) as [f2|e2] eqn:F2; [|right; exists e2; reflexivity].
  destruct f1 as [hist|x]; cbn [as_trade_log];
    [|right; exists (KeyError "Timestamp IST"); reflexivity].
  destruct (to_datetime_hist (map Timestamp_IST hist)) as [hd|e] eqn:Hd;
    [|right; exists e; reflexivity].
  unfold assign_Date_Clean.
  destruct (Nat.eqb (List.length hd) (List.length hist)) eqn:Lh;
    [|right; exists ValueError; reflexivity].
  destruct f2 as [x|fg]; cbn [as_sentiment_index];
    [right; exists (KeyError "date"); reflexivity|].
  destruct (to_datetime_fg (map date fg)) as [fd|e] eqn:Fd;
    [|right; exists e; reflexivity].
  destruct (Nat.eqb (List.length fd) (List.length fg)) eqn:Lf;
    [|right; exists ValueError; reflexivity].
  destruct (apply win_lambda
              (map (fun r => Closed_PnL (left r))
                 (merge (combine hist hd) (combine fg fd)))) as [wins|e] eqn:W;
    [|right; exists e; reflexivity].
  left. eexists; split; [|reflexivity].
  apply apply_win_lambda_Ok in W. destruct W as [-> Hs].
  rewrite assign_Win_map.
  apply Nat.eqb_eq in Lh, Lf.
  apply (Loaded_intro _ _ _ _ hist hd fg fd); auto.
  rewrite Forall_map in Hs. exact Hs.
Qed.

End Runs.

Section Frames.

Variable to_datetime_hist : list value -> result (list key).
Variable to_datetime_fg : list value -> result (list key).

Lemma run_frame (w w' : World) (df : DataFrame) :
  data_processing to_datetime_hist to_datetime_fg w = (Ok df, w') ->
  Loaded to_datetime_hist to_datetime_fg w df \/ df = empty_frame.
Proof.
  intros H.
  destruct (data_processing_cases to_datetime_hist to_datetime_fg w)
    as [(df1 & L & E) | (e & E)]; rewrite E in H;
    injection H as <- _; auto.
Qed.


(** In every frame the script ends with, [Win] is the indicator computed
    from the row's own [Closed PnL], which is a number or missing. *)
Lemma run_rows_Win (w w' : World) (df : DataFrame) :
  data_processing to_datetime_hist to_datetime_fg w = (Ok df, w') ->
  Forall (fun r => Win r = win_of (Closed_PnL (trade r))
                   /\ is_str (Closed_PnL (trade r)) = false) (rows df).
Proof.
  intros H. apply run_frame in H. destruct H as [L | ->]; [|constructor].
  destruct L as [hist hd fg fd _ _ _ _ _ _ Hs ->]. simpl.
  rewrite Forall_map. revert Hs. apply Forall_impl.
  intros m Hm. split; [reflexivity | exact Hm].
Qed.

Lemma run_columns (w w' : World) (df : DataFrame) (label : string) :
  data_processing to_datetime_hist to_datetime_fg w = (Ok df, w') ->
  In label ["Date_Clean"; "classification"; "Closed PnL"; "Win"; "Side"; "Coin"] ->
  has_column df label = true.
Proof.
  intros H Hl. apply run_frame in H.
  assert (C : columns df = merged_columns ++ ["Win"] \/ columns df = columns empty_frame).
  { destruct H as [L | ->]; [left | right; reflexivity].
    destruct L as [? ? ? ? _ _ _ _ _ _ _ ->]. reflexivity. }
  unfold has_column.
  simpl in Hl.
  destruct C as [-> | ->];
    repeat (destruct Hl as [<- | Hl]; [reflexivity|]); contradiction.
Qed.

End Frames.

Lemma Qcltb_lt (x y : Qc) : Qcltb x y = true <-> (x < y)%Qc.
Proof.
  unfold Qcltb. rewrite Qclt_alt.
  destruct (x ?= y)%Qc; split; congruence.
Qed.

Lemma is_win_spec (x : value) :
  is_win x = true <-> exists q, x = Num q /\ (0 < q)%Qc.
Proof.
  destruct x as [q| |s]; simpl.
  - rewrite Qcltb_lt. split; [eauto | intros (q' & E & H); congruence].
  - split; [discriminate | intros (q' & E & _); discriminate].
  - split; [discriminate | intros (q' & E & _); discriminate].
Qed.

(** The scenario of the specification run through the script. *)
Example scenario_frame :
  Scenario.frame_of Scenario.world
  = mkFrame (merged_columns ++ ["Win"]) [Scenario.first_row; Scenario.second_row].
Proof. reflexivity. Qed.

Example scenario_run :
  Sample.data_processing Scenario.world
  = (Ok (Scenario.frame_of Scenario.world),
     said Scenario.world "✅ Data Loaded Successfully!").
Proof. reflexivity. Qed.

(** ** C9: the Win column *)

(** C9. For every row of the joined frame, [Win] is 1 if and only if the
    row's [Closed PnL] is a number strictly greater than 0; it is 0
    otherwise, in particular for a [Closed PnL] equal to 0. *)
Theorem Win_iff_Closed_PnL_positive
  (to_datetime_hist to_datetime_fg : list value -> result (list key))
  (w w' : World) (df : DataFrame) (r : JoinedRecord) :
  data_processing to_datetime_hist to_datetime_fg w = (Ok df, w') ->
  In r (rows df) ->
  (Win r = 1%Z <-> exists q, Closed_PnL (trade r) = Num q /\ (0 < q)%Qc)
  /\ (Win r = 1%Z \/ Win r = 0%Z)
  /\ (Closed_PnL (trade r) = Num 0%Qc -> Win r = 0%Z).
Proof.
  intros H Hr.
  pose proof (run_rows_Win _ _ _ _ _ H) as F.
  rewrite Forall_forall in F. destruct (F r Hr) as [E _].
  rewrite E. unfold win_of.
  pose proof (is_win_spec (Closed_PnL (trade r))) as S.
  destruct (is_win (Closed_PnL (trade r))) eqn:W.
  - repeat split; auto.
    + intros _. now apply S.
    + intros Z0. rewrite Z0 in W. discriminate W.
  - repeat split; auto.
    + discriminate.
    + intros X. apply S in X. discriminate X.
Qed.

Lemma Win_iff_Closed_PnL_positive_witness :
  (Win Scenario.first_row = 1%Z <->
   exists q, Closed_PnL (trade Scenario.first_row) = Num q /\ (0 < q)%Qc)
  /\ (Win Scenario.first_row = 1%Z \/ Win Scenario.first_row = 0%Z)
  /\ (Closed_PnL (trade Scenario.first_row) = Num 0%Qc -> Win Scenario.first_row = 0%Z).
Proof.
  apply (Win_iff_Closed_PnL_positive Sample.to_datetime_hist Sample.to_datetime_fg
           Scenario.world (said Scenario.world "✅ Data Loaded Successfully!")
           (Scenario.frame_of Scenario.world)).
  - reflexivity.
  - simpl. left. reflexivity.
Defined.

(** ** The join *)


Section JoinedRows.

Variable to_datetime_hist : list value -> result (list key).
Variable to_datetime_fg : list value -> result (list key).



End JoinedRows.

(** ** C1: rows whose date does not parse *)




(** ** C5: the join under one sentiment row per key *)







(** ** C3: a file that cannot be read *)



(** ** C4: the win rate *)

Lemma qz_le (a b : Z) : (a <= b)%Z -> (qz a <= qz b)%Qc.
Proof.
  intros H. unfold Qcle, qz, Q2Qc. cbn [this]. rewrite !Qred_correct.
  rewrite <- Zle_Qle. exact H.
Qed.

Lemma qz_lt (a b : Z) : (a < b)%Z -> (qz a < qz b)%Qc.
Proof.
  intros H. unfold Qclt, qz, Q2Qc. cbn [this]. rewrite !Qred_correct.
  rewrite <- Zlt_Qlt. exact H.
Qed.

Lemma ratio_in_unit_interval (k n : Z) :
  (0 <= k <= n)%Z -> (0 < n)%Z -> (0 <= qz k / qz n <= 1)%Qc.
Proof.
  intros [K0 Kn] N.
  pose proof (qz_lt 0 n N) as Np. change (qz 0) with 0%Qc in Np.
  assert (Nz : qz n <> 0%Qc) by (intros E; rewrite E in Np; now apply (Qclt_not_eq _ _ Np)).
  assert (M : (qz k / qz n * qz n)%Qc = qz k) by (field; exact Nz).
  split; apply (Qcmult_lt_0_le_reg_r _ _ (qz n) Np); rewrite M.
  - rewrite Qcmult_0_l. now apply (qz_le 0 k).
  - rewrite Qcmult_1_l. now apply qz_le.
Qed.

Lemma sum_Win (rs : list JoinedRecord) :
  Forall (fun r => Win r = win_of (Closed_PnL (trade r))) rs ->
  fold_right Z.add 0%Z (map Win rs) = Z.of_nat (wins rs).
Proof.
  unfold wins. induction 1 as [|r rs E _ IH]; simpl; [reflexivity|].
  rewrite IH, E. unfold win_of.
  destruct (is_win (Closed_PnL (trade r))); simpl List.length; lia.
Qed.

Lemma wins_le_length (rs : list JoinedRecord) : wins rs <= List.length rs.
Proof. apply filter_length_le. Qed.

Section WinRate.

Variable to_datetime_hist : list value -> result (list key).
Variable to_datetime_fg : list value -> result (list key).

(** The win rate of any frame the script ends with. *)
Lemma run_winRate (w w' : World) (df : DataFrame) :
  data_processing to_datetime_hist to_datetime_fg w = (Ok df, w') ->
  winRate df
  = Ok (match rows df with
        | [] => NaN
        | _ => Num (qz (Z.of_nat (wins (rows df)))
                    / qz (Z.of_nat (List.length (rows df))))%Qc
        end).
Proof.
  intros H. unfold winRate, getitem.
  rewrite (run_columns _ _ _ _ _ "Win" H) by (simpl; tauto).
  cbn [rbind]. unfold Series_mean.
  pose proof (run_rows_Win _ _ _ _ _ H) as F.
  assert (F' : Forall (fun r => Win r = win_of (Closed_PnL (trade r))) (rows df)).
  { revert F. apply Forall_impl. tauto. }
  rewrite <- (sum_Win _ F'), <- (length_map Win).
  destruct (rows df); reflexivity.
Qed.

End WinRate.

(** C4. The win rate is the mean of the Win indicator over all joined rows,
    that is the number of winning rows over the number of rows.  It lies in
    [0,1] when there is at least one row; with no row it is NaN, and no
    exception is raised. *)
Theorem winRate_in_unit_interval_or_NaN
  (to_datetime_hist to_datetime_fg : list value -> result (list key))
  (w w' : World) (df : DataFrame) :
  data_processing to_datetime_hist to_datetime_fg w = (Ok df, w') ->
  (tradeCount df = 0 -> winRate df = Ok NaN)
  /\ (0 < tradeCount df ->
      exists q, winRate df = Ok (Num q)
                /\ q = (qz (fold_right Z.add 0%Z (map Win (rows df)))
                        / qz (Z.of_nat (tradeCount df)))%Qc
                /\ q = (qz (Z.of_nat (wins (rows df)))
                        / qz (Z.of_nat (tradeCount df)))%Qc
                /\ (0 <= q <= 1)%Qc).
Proof.
  intros H. rewrite (run_winRate _ _ _ _ _ H). unfold tradeCount.
  pose proof (run_rows_Win _ _ _ _ _ H) as F.
  assert (F' : Forall (fun r => Win r = win_of (Closed_PnL (trade r))) (rows df)).
  { revert F. apply Forall_impl. tauto. }
  pose proof (wins_le_length (rows df)) as W.
  rewrite (sum_Win _ F').
  destruct (rows df) as [|r rs] eqn:R.
  - split; [reflexivity | simpl; lia].
  - split; [simpl; discriminate|]. intros _.
    eexists. split; [reflexivity|]. split; [reflexivity|]. split; [reflexivity|].
    apply ratio_in_unit_interval; simpl List.length in *; lia.
Qed.

Lemma winRate_in_unit_interval_or_NaN_witness :
  (tradeCount (Scenario.frame_of Scenario.world) = 0 ->
   winRate (Scenario.frame_of Scenario.world) = Ok NaN)
  /\ (0 < tradeCount (Scenario.frame_of Scenario.world) ->
      exists q, winRate (Scenario.frame_of Scenario.world) = Ok (Num q)
                /\ q = (qz (fold_right Z.add 0%Z
                              (map Win (rows (Scenario.frame_of Scenario.world))))
                        / qz (Z.of_nat (tradeCount (Scenario.frame_of Scenario.world))))%Qc
                /\ q = (qz (Z.of_nat (wins (rows (Scenario.frame_of Scenario.world))))
                        / qz (Z.of_nat (tradeCount (Scenario.frame_of Scenario.world))))%Qc
                /\ (0 <= q <= 1)%Qc).
Proof.
  apply (winRate_in_unit_interval_or_NaN
           Sample.to_datetime_hist Sample.to_datetime_fg
           Scenario.world (said Scenario.world "✅ Data Loaded Successfully!")).
  reflexivity.
Defined.

(** ** C6: the total PnL *)





Section TotalPnl.

Variable to_datetime_hist : list value -> result (list key).
Variable to_datetime_fg : list value -> result (list key).



End TotalPnl.



(** The scenario of the specification: two joined rows, 100 - 30 = 70. *)
Example scenario_totalPnl :
  totalPnl (Scenario.frame_of Scenario.world) = Ok (qz 70)
  /\ tradeCount (Scenario.frame_of Scenario.world) = 2
  /\ winRate (Scenario.frame_of Scenario.world) = Ok (Num (qz 1 / qz 2)%Qc).
Proof. repeat split. Qed.

(** ** Taking rows by position *)

Section Take.

Context {A : Type}.






End Take.



(** ** Null and non-null keys *)







(** ** sort_values *)



Section SortValuesFacts.

Variable argsort : list calendar_date -> list nat.


End SortValuesFacts.

(** ** Running sums *)





(** ** The cumulative PnL of a frame the script ends with *)

Section Cumulative.

Variable to_datetime_hist : list value -> result (list key).
Variable to_datetime_fg : list value -> result (list key).
Variable argsort : list calendar_date -> list nat.


End Cumulative.

(** ** C2: the cumulative series *)



(** ** C7: the last element of the cumulative series *)




(** ** C2 as stated: a stable sort *)

Lemma insert_row_Permutation (r : JoinedRecord) (rs : list JoinedRecord) :
  Permutation (insert_row r rs) (r :: rs).
Proof.
  induction rs as [|x rs IH]; simpl; [reflexivity|].
  destruct (key_leb (Date_Clean r) (Date_Clean x)); [reflexivity|].
  rewrite IH. apply perm_swap.
Qed.

Lemma stable_sort_Permutation (rs : list JoinedRecord) :
  Permutation (stable_sort rs) rs.
Proof.
  induction rs as [|r rs IH]; simpl; [constructor|].
  rewrite insert_row_Permutation. now constructor.
Qed.

(** Rows of a single date are left as they are. *)
Lemma stable_sort_same_date (d : calendar_date) (rs : list JoinedRecord) :
  Forall (fun r => Date_Clean r = Some d) rs -> stable_sort rs = rs.
Proof.
  induction 1 as [|r rs E F IH]; simpl; [reflexivity|].
  rewrite IH. destruct F as [|x rs Ex F]; cbn [insert_row]; [reflexivity|].
  rewrite E, Ex. cbn [key_leb]. now rewrite date_leb_refl.
Qed.


(** ** C8: running the script again *)

Section Determinism.

Variable to_datetime_hist : list value -> result (list key).
Variable to_datetime_fg : list value -> result (list key).






End Determinism.



(** ** C10: a missing Closed PnL *)

Lemma wins_missing_le_length (rs : list JoinedRecord) :
  wins rs + missing rs <= List.length rs.
Proof.
  unfold wins, missing. induction rs as [|r rs IH]; simpl; [lia|].
  destruct (Closed_PnL (trade r)) as [q| |s]; simpl;
    try destruct (Qcltb 0 q); simpl; lia.
Qed.

Lemma qz_mul (a b : Z) : (qz a * qz b)%Qc = qz (a * b).
Proof.
  unfold qz, Qcmult. apply Q2Qc_eq_iff. unfold Q2Qc. cbn [this].
  rewrite !Qred_correct, inject_Z_mult. reflexivity.
Qed.

Lemma qz_inj (a b : Z) : qz a = qz b -> a = b.
Proof.
  unfold qz. intros H. apply Q2Qc_eq_iff in H. now apply inject_Z_injective.
Qed.

Lemma qz_pos_neq (n : Z) : (0 < n)%Z -> qz n <> 0%Qc.
Proof.
  intros N E. change 0%Qc with (qz 0) in E. apply qz_inj in E. lia.
Qed.

(** A smaller denominator does not give a smaller ratio. *)
Lemma ratio_antitone (a b c : Z) :
  (0 <= a)%Z -> (0 < c <= b)%Z -> (qz a / qz b <= qz a / qz c)%Qc.
Proof.
  intros A [C B].
  assert (Bz : qz b <> 0%Qc) by (apply qz_pos_neq; lia).
  assert (Cz : qz c <> 0%Qc) by (apply qz_pos_neq; lia).
  assert (P : (0 < qz b * qz c)%Qc).
  { rewrite qz_mul. change 0%Qc with (qz 0). apply qz_lt. nia. }
  apply (Qcmult_lt_0_le_reg_r _ _ _ P).
  replace (qz a / qz b * (qz b * qz c))%Qc with (qz a * qz c)%Qc by (field; exact Bz).
  replace (qz a / qz c * (qz b * qz c))%Qc with (qz a * qz b)%Qc by (field; exact Cz).
  rewrite !qz_mul. apply qz_le. nia.
Qed.

Lemma ratio_strictly_antitone (a b c : Z) :
  (0 < a)%Z -> (0 < c < b)%Z -> (qz a / qz b < qz a / qz c)%Qc.
Proof.
  intros A [C B].
  assert (Bz : qz b <> 0%Qc) by (apply qz_pos_neq; lia).
  assert (Cz : qz c <> 0%Qc) by (apply qz_pos_neq; lia).
  destruct (Qcle_lt_or_eq _ _ (ratio_antitone a b c ltac:(lia) ltac:(lia))) as [L | E];
    [exact L | exfalso].
  assert (X : (qz a * qz c)%Qc = (qz a * qz b)%Qc).
  { replace (qz a * qz c)%Qc with (qz a / qz b * (qz b * qz c))%Qc by (field; exact Bz).
    rewrite E. field. exact Cz. }
  rewrite !qz_mul in X. apply qz_inj in X. nia.
Qed.

(** C10. A joined row whose [Closed PnL] is missing gets [Win] 0 and is a
    row of the frame like any other: the win rate divides the number of
    winning rows by the number of all rows, the rows with a missing value
    among them.  It is therefore no greater than the rate over the rows
    that have a value, and smaller as soon as there is a winning row. *)
Theorem missing_Closed_PnL_counts_as_a_loss
  (to_datetime_hist to_datetime_fg : list value -> result (list key))
  (w w' : World) (df : DataFrame) :
  data_processing to_datetime_hist to_datetime_fg w = (Ok df, w') ->
  (forall r, In r (rows df) -> Closed_PnL (trade r) = NaN -> Win r = 0%Z)
  /\ wins (rows df) + missing (rows df) <= tradeCount df
  /\ (0 < tradeCount df ->
      winRate df
      = Ok (Num (qz (Z.of_nat (wins (rows df))) / qz (Z.of_nat (tradeCount df)))%Qc))
  /\ (missing (rows df) < tradeCount df ->
      (qz (Z.of_nat (wins (rows df))) / qz (Z.of_nat (tradeCount df))
       <= qz (Z.of_nat (wins (rows df)))
          / qz (Z.of_nat (tradeCount df - missing (rows df))))%Qc)
  /\ (0 < missing (rows df) -> 0 < wins (rows df) ->
      (qz (Z.of_nat (wins (rows df))) / qz (Z.of_nat (tradeCount df))
       < qz (Z.of_nat (wins (rows df)))
         / qz (Z.of_nat (tradeCount df - missing (rows df))))%Qc).
Proof.
  intros H.
  pose proof (run_rows_Win _ _ _ _ _ H) as F. rewrite Forall_forall in F.
  pose proof (wins_missing_le_length (rows df)) as L.
  unfold tradeCount.
  split; [|split; [exact L|split; [|split]]].
  - intros r Hr N. destruct (F r Hr) as [-> _]. now rewrite N.
  - intros P. rewrite (run_winRate _ _ _ _ _ H).
    destruct (rows df); [simpl in P; lia | reflexivity].
  - intros M. apply ratio_antitone; lia.
  - intros M W. apply ratio_strictly_antitone; lia.
Qed.

Lemma missing_Closed_PnL_counts_as_a_loss_witness :
  (forall r, In r (rows (Scenario.frame_of OneMissing.world)) ->
     Closed_PnL (trade r) = NaN -> Win r = 0%Z)
  /\ wins (rows (Scenario.frame_of OneMissing.world))
     + missing (rows (Scenario.frame_of OneMissing.world))
     <= tradeCount (Scenario.frame_of OneMissing.world)
  /\ (0 < tradeCount (Scenario.frame_of OneMissing.world) ->
      winRate (Scenario.frame_of OneMissing.world)
      = Ok (Num (qz (Z.of_nat (wins (rows (Scenario.frame_of OneMissing.world))))
                 / qz (Z.of_nat (tradeCount (Scenario.frame_of OneMissing.world))))%Qc))
  /\ (missing (rows (Scenario.frame_of OneMissing.world))
      < tradeCount (Scenario.frame_of OneMissing.world) ->
      (qz (Z.of_nat (wins (rows (Scenario.frame_of OneMissing.world))))
       / qz (Z.of_nat (tradeCount (Scenario.frame_of OneMissing.world)))
       <= qz (Z.of_nat (wins (rows (Scenario.frame_of OneMissing.world))))
          / qz (Z.of_nat (tradeCount (Scenario.frame_of OneMissing.world)
                          - missing (rows (Scenario.frame_of OneMissing.world)))))%Qc)
  /\ (0 < missing (rows (Scenario.frame_of OneMissing.world)) ->
      0 < wins (rows (Scenario.frame_of OneMissing.world)) ->
      (qz (Z.of_nat (wins (rows (Scenario.frame_of OneMissing.world))))
       / qz (Z.of_nat (tradeCount (Scenario.frame_of OneMissing.world)))
       < qz (Z.of_nat (wins (rows (Scenario.frame_of OneMissing.world))))
         / qz (Z.of_nat (tradeCount (Scenario.frame_of OneMissing.world)
                         - missing (rows (Scenario.frame_of OneMissing.world)))))%Qc).
Proof.
  apply (missing_Closed_PnL_counts_as_a_loss
           Sample.to_datetime_hist Sample.to_datetime_fg
           OneMissing.world (said OneMissing.world "✅ Data Loaded Successfully!")).
  reflexivity.
Defined.

(** One win out of two rows, the other row without a value: the rate is
    1/2, not 1. *)
Example one_missing_winRate :
  winRate (Scenario.frame_of OneMissing.world) = Ok (Num (qz 1 / qz 2)%Qc)
  /\ map Win (rows (Scenario.frame_of OneMissing.world)) = [1%Z; 0%Z].
Proof. repeat split. Qed.

(** * Properties of the rest of the script *)

(** ** The thousands separator of the trade count (line 95) *)

Lemma string_of_uint_no_comma (d : Decimal.uint) :
  forallb not_comma
    (list_ascii_of_string (DecimalString.NilEmpty.string_of_uint d)) = true.
Proof. induction d; simpl; auto. Qed.

Lemma digits_no_comma (n : nat) : forallb not_comma (digits n) = true.
Proof. apply string_of_uint_no_comma. Qed.

Lemma digits_nonempty (n : nat) : digits n <> [].
Proof.
  unfold digits. intros E.
  assert (S : DecimalString.NilEmpty.string_of_uint (Nat.to_uint n) = ""%string).
  { rewrite <- (string_of_list_ascii_of_string
                  (DecimalString.NilEmpty.string_of_uint (Nat.to_uint n))), E.
    reflexivity. }
  pose proof (DecimalString.NilEmpty.usu (Nat.to_uint n)) as U.
  rewrite S in U. simpl in U. injection U as U.
  pose proof (DecimalNat.Unsigned.of_to n) as O. rewrite <- U in O. simpl in O.
  subst n. discriminate U.
Qed.

Lemma filter_no_comma (l : list ascii) :
  forallb not_comma l = true -> filter not_comma l = l.
Proof.
  induction l as [|c l IH]; simpl; [reflexivity|].
  intros H. apply andb_prop in H. destruct H as [Hc Hl].
  rewrite Hc, IH; auto.
Qed.

Lemma split_commas_no_comma (l : list ascii) :
  forallb not_comma l = true -> split_commas l = [l].
Proof.
  induction l as [|c l IH]; simpl; [reflexivity|].
  intros H. apply andb_prop in H. destruct H as [Hc Hl].
  unfold not_comma in Hc. apply negb_true_iff in Hc.
  rewrite Hc, IH; auto.
Qed.

Lemma forallb_rev {A} (f : A -> bool) (l : list A) :
  forallb f (List.rev l) = forallb f l.
Proof.
  induction l as [|x l IH]; simpl; [reflexivity|].
  rewrite forallb_app, IH. simpl. rewrite andb_true_r. apply andb_comm.
Qed.

Lemma split_commas_nonempty (l : list ascii) : split_commas l <> [].
Proof.
  destruct l as [|c l]; simpl; [discriminate|].
  destruct (Ascii.eqb c ","%char); [discriminate|].
  destruct (split_commas l); discriminate.
Qed.

Lemma split_commas_app (x y : list ascii) :
  split_commas (x ++ ","%char :: y) = split_commas x ++ split_commas y.
Proof.
  induction x as [|c x IH]; simpl; [reflexivity|].
  destruct (Ascii.eqb c ","%char); [now rewrite IH|].
  rewrite IH. destruct (split_commas x) eqn:E; [|reflexivity].
  exfalso. exact (split_commas_nonempty x E).
Qed.

(** The shape of the grouped digits, read from the most significant end. *)
Lemma group3_pieces (n : nat) (l : list ascii) :
  List.length l <= n -> l <> [] -> forallb not_comma l = true ->
  exists first others,
    split_commas (List.rev (group3 l)) = first :: others
    /\ 1 <= List.length first <= 3
    /\ Forall (fun piece => List.length piece = 3) others
    /\ first ++ List.concat others = List.rev l.
Proof.
  revert l. induction n as [|n IH]; intros l L NE NC.
  - destruct l; [contradiction | simpl in L; lia].
  - destruct l as [|a [|b [|c [|d more]]]]; try contradiction.
    + exists [a], []. simpl in *. rewrite andb_true_r in NC.
      unfold not_comma in NC. apply negb_true_iff in NC. rewrite NC.
      repeat split; auto.
    + exists (List.rev [a; b]), [].
      change (group3 [a; b]) with [a; b].
      rewrite split_commas_no_comma.
      * repeat split; simpl; rewrite ?app_nil_r; auto.
      * rewrite forallb_rev. exact NC.
    + exists (List.rev [a; b; c]), [].
      change (group3 [a; b; c]) with [a; b; c].
      rewrite split_commas_no_comma.
      * repeat split; simpl; rewrite ?app_nil_r; auto.
      * rewrite forallb_rev. exact NC.
    + change (group3 (a :: b :: c :: d :: more))
        with (a :: b :: c :: ","%char :: group3 (d :: more)).
      assert (NCm : forallb not_comma (d :: more) = true).
      { apply forallb_forall. intros x Hx.
        apply (proj1 (forallb_forall _ _) NC). simpl. simpl in Hx. tauto. }
      assert (NC3 : forallb not_comma [c; b; a] = true).
      { apply forallb_forall. intros x Hx.
        apply (proj1 (forallb_forall _ _) NC). simpl. simpl in Hx. tauto. }
      destruct (IH (d :: more)) as (first & others & S & F & O & C);
        [simpl in *; lia | discriminate | exact NCm |].
      exists first, (others ++ [[c; b; a]]).
      replace (List.rev (a :: b :: c :: ","%char :: group3 (d :: more)))
        with (List.rev (group3 (d :: more)) ++ ","%char :: [c; b; a])
        by (simpl; rewrite <- !app_assoc; reflexivity).
      rewrite split_commas_app, S, (split_commas_no_comma _ NC3).
      repeat split; try tauto.
      * apply Forall_app. split; [exact O | repeat constructor].
      * rewrite concat_app, app_assoc, C. simpl.
        rewrite <- !app_assoc. reflexivity.
Qed.

Lemma filter_group3 (n : nat) (l : list ascii) :
  List.length l <= n -> filter not_comma (group3 l) = filter not_comma l.
Proof.
  revert l. induction n as [|n IH]; intros l L.
  - destruct l; [reflexivity | simpl in L; lia].
  - destruct l as [|a [|b [|c [|d more]]]]; try reflexivity.
    change (group3 (a :: b :: c :: d :: more))
      with (a :: b :: c :: ","%char :: group3 (d :: more)).
    change (a :: b :: c :: ","%char :: group3 (d :: more))
      with ([a; b; c] ++ ","%char :: group3 (d :: more)).
    change (a :: b :: c :: d :: more) with ([a; b; c] ++ d :: more).
    rewrite !filter_app.
    change (filter not_comma (","%char :: group3 (d :: more)))
      with (filter not_comma (group3 (d :: more))).
    rewrite IH by (simpl in *; lia). reflexivity.
Qed.

(** X1.  Taking the commas out of the formatted trade count leaves the
    decimal numeral of the count: it reads back as that number. *)
Theorem format_comma_reads_back (n : nat) :
  strip_commas (format_comma n) = DecimalString.NilEmpty.string_of_uint (Nat.to_uint n)
  /\ option_map Nat.of_uint
       (DecimalString.NilEmpty.uint_of_string (strip_commas (format_comma n)))
     = Some n.
Proof.
  assert (E : strip_commas (format_comma n)
              = DecimalString.NilEmpty.string_of_uint (Nat.to_uint n)).
  { unfold strip_commas, format_comma.
    rewrite list_ascii_of_string_of_list_ascii.
    rewrite filter_rev, (filter_group3 _ _ (Nat.le_refl _)), <- filter_rev, rev_involutive.
    rewrite (filter_no_comma _ (digits_no_comma n)).
    apply string_of_list_ascii_of_string. }
  split; [exact E|].
  rewrite E, DecimalString.NilEmpty.usu. simpl.
  now rewrite DecimalNat.Unsigned.of_to.
Qed.

(** X2.  The formatted trade count is the digits of the count cut by commas
    into a leading piece of one to three digits and pieces of exactly
    three. *)
Theorem format_comma_groups_of_three (n : nat) :
  exists first others,
    split_commas (list_ascii_of_string (format_comma n)) = first :: others
    /\ 1 <= List.length first <= 3
    /\ Forall (fun piece => List.length piece = 3) others
    /\ first ++ List.concat others = digits n.
Proof.
  unfold format_comma. rewrite list_ascii_of_string_of_list_ascii.
  destruct (group3_pieces _ (List.rev (digits n)) (Nat.le_refl _))
    as (first & others & S & F & O & C).
  - intros E. apply (f_equal (@List.rev _)) in E. rewrite rev_involutive in E.
    now apply (digits_nonempty n).
  - rewrite forallb_rev. apply digits_no_comma.
  - exists first, others. rewrite rev_involutive in C. auto.
Qed.

(** ** The data processing, from its inputs *)


Section FromInputs.

Variable to_datetime_hist : list value -> result (list key).
Variable to_datetime_fg : list value -> result (list key).


End FromInputs.

(** ** A Closed PnL that is not a number *)



(** ** Several sentiment rows for a date *)








(** Two sentiment rows for the day of two trades: four joined rows. *)
Example two_moods_double_the_trades :
  tradeCount (Scenario.frame_of TwoMoods.world) = 4
  /\ map (fun r => classification (sentiment r)) (rows (Scenario.frame_of TwoMoods.world))
     = [Str "Fear"; Str "Greed"; Str "Fear"; Str "Greed"].
Proof. repeat split. Qed.

(** ** No trade with a sentiment row *)




(** ** The metric cards *)



(** ** The cumulative series without losses *)






(** ** The order of group labels *)

Lemma ascii_compare_refl (a : ascii) : Ascii.compare a a = Eq.
Proof. unfold Ascii.compare. apply N.compare_refl. Qed.

Lemma ascii_compare_trans (a b c : ascii) :
  Ascii.compare a b = Lt -> Ascii.compare b c = Lt -> Ascii.compare a c = Lt.
Proof.
  unfold Ascii.compare. rewrite !N.compare_lt_iff. apply N.lt_trans.
Qed.

Lemma string_compare_refl (s : string) : String.compare s s = Eq.
Proof.
  induction s as [|a s IH]; simpl; [reflexivity|].
  now rewrite ascii_compare_refl.
Qed.

Lemma string_compare_trans (s t u : string) :
  String.compare s t = Lt -> String.compare t u = Lt -> String.compare s u = Lt.
Proof.
  revert t u. induction s as [|a s IH]; intros [|b t] [|c u]; simpl;
    try discriminate; auto.
  destruct (Ascii.compare a b) eqn:AB; try discriminate;
    destruct (Ascii.compare b c) eqn:BC; try discriminate; intros H1 H2.
  - apply Ascii.compare_eq_iff in AB, BC. subst.
    rewrite ascii_compare_refl. now apply (IH t).
  - apply Ascii.compare_eq_iff in AB. subst. now rewrite BC.
  - apply Ascii.compare_eq_iff in BC. subst. now rewrite AB.
  - now rewrite (ascii_compare_trans _ _ _ AB BC).
Qed.

Lemma label_compare_eq (a b : value) : label_compare a b = Eq <-> a = b.
Proof.
  destruct a as [p| |s], b as [q| |t]; simpl; try (split; congruence).
  - rewrite <- Qceq_alt. split; congruence.
  - split; intros H.
    + now rewrite (String.compare_eq_iff _ _ H).
    + injection H as ->. apply string_compare_refl.
Qed.

Lemma label_compare_antisym (a b : value) :
  label_compare b a = CompOpp (label_compare a b).
Proof.
  destruct a as [p| |s], b as [q| |t]; simpl; try reflexivity.
  - unfold Qccompare. symmetry. apply Qcompare_antisym.
  - apply String.compare_antisym.
Qed.

Lemma label_lt_trans (a b c : value) : label_lt a b -> label_lt b c -> label_lt a c.
Proof.
  unfold label_lt.
  destruct a as [p| |s], b as [q| |t], c as [r| |u]; simpl;
    try discriminate; auto.
  - rewrite <- !Qclt_alt. apply Qclt_trans.
  - apply string_compare_trans.
Qed.

Lemma label_eqb_eq (a b : value) : label_eqb a b = true <-> a = b.
Proof.
  unfold label_eqb. rewrite <- label_compare_eq.
  destruct (label_compare a b); split; congruence.
Qed.

(** ** The group labels *)

Lemma in_insert_label (x k : value) (ks : list value) :
  In x (insert_label k ks) <-> x = k \/ In x ks.
Proof.
  induction ks as [|y ks IH]; simpl; [intuition|].
  destruct (label_compare k y) eqn:C; simpl.
  - apply label_compare_eq in C. subst. intuition.
  - intuition.
  - rewrite IH. intuition.
Qed.

Lemma insert_label_sorted (k : value) (ks : list value) :
  StronglySorted label_lt ks -> StronglySorted label_lt (insert_label k ks).
Proof.
  induction 1 as [|y ks S IH F]; simpl.
  - repeat constructor.
  - destruct (label_compare k y) eqn:C.
    + now constructor.
    + constructor; [now constructor|].
      constructor; [exact C|].
      revert F. apply Forall_impl. intros z. now apply label_lt_trans.
    + constructor; [exact IH|].
      apply Forall_forall. intros z Hz. apply in_insert_label in Hz.
      destruct Hz as [-> | Hz].
      * unfold label_lt. rewrite label_compare_antisym, C. reflexivity.
      * rewrite Forall_forall in F. now apply F.
Qed.

Lemma group_labels_sorted (col : list value) :
  StronglySorted label_lt (group_labels col).
Proof.
  unfold group_labels. induction (filter notna col) as [|x l IH]; simpl.
  - constructor.
  - now apply insert_label_sorted.
Qed.

Lemma in_group_labels (k : value) (col : list value) :
  In k (group_labels col) <-> In k col /\ notna k = true.
Proof.
  unfold group_labels. rewrite <- filter_In.
  induction (filter notna col) as [|x l IH]; simpl; [tauto|].
  rewrite in_insert_label, IH. intuition.
Qed.

Lemma label_lt_irrefl (a : value) : ~ label_lt a a.
Proof.
  unfold label_lt. rewrite (proj2 (label_compare_eq a a) eq_refl). discriminate.
Qed.

Lemma sorted_labels_NoDup (ks : list value) :
  StronglySorted label_lt ks -> NoDup ks.
Proof.
  induction 1 as [|k ks S IH F]; constructor; [|exact IH].
  intros I. rewrite Forall_forall in F. exact (label_lt_irrefl k (F k I)).
Qed.

(** ** The win rate by sentiment *)


Lemma group_of_rows (k : value) (rs : list JoinedRecord) :
  group_of k (map (fun r => classification (sentiment r)) rs) (map Win rs)
  = map Win (rows_of_label k rs).
Proof.
  unfold group_of, rows_of_label. induction rs as [|r rs IH]; simpl; [reflexivity|].
  destruct (label_eqb k (classification (sentiment r))); simpl; now rewrite IH.
Qed.

Lemma Series_mean_Win (rs : list JoinedRecord) :
  Forall (fun r => Win r = win_of (Closed_PnL (trade r))) rs ->
  Series_mean (map Win rs)
  = match rs with
    | [] => NaN
    | _ => Num (qz (Z.of_nat (wins rs)) / qz (Z.of_nat (List.length rs)))%Qc
    end.
Proof.
  intros F. unfold Series_mean. rewrite <- (sum_Win _ F), <- (length_map Win).
  destruct rs; reflexivity.
Qed.

Lemma rows_of_label_Win (k : value) (rs : list JoinedRecord) :
  Forall (fun r => Win r = win_of (Closed_PnL (trade r))) rs ->
  Forall (fun r => Win r = win_of (Closed_PnL (trade r))) (rows_of_label k rs).
Proof.
  intros F. apply Forall_forall. intros r Hr. apply filter_In in Hr.
  rewrite Forall_forall in F. now apply F.
Qed.

Section BySentiment.

Variable to_datetime_hist : list value -> result (list key).
Variable to_datetime_fg : list value -> result (list key).

(** The table of any frame the script ends with: one row per label. *)
Lemma run_groupby (w w' : World) (df : DataFrame) :
  data_processing to_datetime_hist to_datetime_fg w = (Ok df, w') ->
  groupby_classification_Win_mean df
  = Ok (map (fun k => (k, Series_mean (map Win (rows_of_label k (rows df)))))
          (group_labels (map (fun r => classification (sentiment r)) (rows df)))).
Proof.
  intros H. unfold groupby_classification_Win_mean, getitem.
  rewrite (run_columns _ _ _ _ _ "classification" H) by (simpl; tauto).
  rewrite (run_columns _ _ _ _ _ "Win" H) by (simpl; tauto).
  cbn [rbind]. f_equal. apply map_ext. intros k. now rewrite group_of_rows.
Qed.

Lemma run_Win_of (w w' : World) (df : DataFrame) :
  data_processing to_datetime_hist to_datetime_fg w = (Ok df, w') ->
  Forall (fun r => Win r = win_of (Closed_PnL (trade r))) (rows df).
Proof.
  intros H. generalize (run_rows_Win _ _ _ _ _ H). apply Forall_impl. tauto.
Qed.

End BySentiment.

(** X8.  On a frame with at least one row, where [Win] is a column of
    integers, the win rates by sentiment are computed without an exception.
    The table has one row per classification that occurs among the joined
    rows, each once, the labels in ascending order; a missing classification
    makes no group.  The rate of a label is the share of winning rows among
    the rows of that label, between 0 and 1. *)
Theorem win_rate_by_sentiment_table
  (to_datetime_hist to_datetime_fg : list value -> result (list key))
  (w w' : World) (df : DataFrame) :
  data_processing to_datetime_hist to_datetime_fg w = (Ok df, w') ->
  rows df <> [] ->
  exists table,
    groupby_classification_Win_mean df = Ok table
    /\ StronglySorted label_lt (map fst table)
    /\ NoDup (map fst table)
    /\ (forall k, In k (map fst table)
        <-> notna k = true
            /\ exists r, In r (rows df) /\ classification (sentiment r) = k)
    /\ (forall k m, In (k, m) table ->
        exists q, m = Num q
          /\ q = (qz (Z.of_nat (wins (rows_of_label k (rows df))))
                  / qz (Z.of_nat (List.length (rows_of_label k (rows df)))))%Qc
          /\ (0 <= q <= 1)%Qc).
Proof.
  intros H _. eexists. split; [exact (run_groupby _ _ _ _ _ H)|].
  rewrite map_map. cbn [fst]. rewrite map_id.
  pose proof (group_labels_sorted
                (map (fun r => classification (sentiment r)) (rows df))) as S.
  assert (M : forall k,
             In k (group_labels (map (fun r => classification (sentiment r)) (rows df)))
             <-> notna k = true
                 /\ exists r, In r (rows df) /\ classification (sentiment r) = k).
  { intros k. rewrite in_group_labels, in_map_iff. firstorder. }
  split; [exact S|]. split; [now apply sorted_labels_NoDup|]. split; [exact M|].
  intros k m I. apply in_map_iff in I. destruct I as (k' & E & I).
  injection E as -> <-. apply M in I. destruct I as (_ & r & Hr & C).
  rewrite (Series_mean_Win _ (rows_of_label_Win k _ (run_Win_of _ _ _ _ _ H))).
  assert (Hin : In r (rows_of_label k (rows df))).
  { apply filter_In. split; [exact Hr|]. now apply label_eqb_eq. }
  pose proof (wins_le_length (rows_of_label k (rows df))) as W.
  destruct (rows_of_label k (rows df)) as [|r0 l] eqn:R; [contradiction|].
  eexists. split; [reflexivity|]. split; [reflexivity|].
  apply ratio_in_unit_interval; simpl List.length in *; lia.
Qed.

Lemma win_rate_by_sentiment_table_witness :
  exists table,
    groupby_classification_Win_mean (Scenario.frame_of TwoMoods.world) = Ok table
    /\ StronglySorted label_lt (map fst table)
    /\ NoDup (map fst table)
    /\ (forall k, In k (map fst table)
        <-> notna k = true
            /\ exists r, In r (rows (Scenario.frame_of TwoMoods.world))
                         /\ classification (sentiment r) = k)
    /\ (forall k m, In (k, m) table ->
        exists q, m = Num q
          /\ q = (qz (Z.of_nat (wins (rows_of_label k
                                        (rows (Scenario.frame_of TwoMoods.world)))))
                  / qz (Z.of_nat (List.length
                                    (rows_of_label k
                                       (rows (Scenario.frame_of TwoMoods.world))))))%Qc
          /\ (0 <= q <= 1)%Qc).
Proof.
  apply (win_rate_by_sentiment_table
           Sample.to_datetime_hist Sample.to_datetime_fg
           TwoMoods.world (said TwoMoods.world "✅ Data Loaded Successfully!")).
  - reflexivity.
  - discriminate.
Defined.

(** Two labels, in alphabetical order, one win out of two rows each. *)
Example two_moods_table :
  groupby_classification_Win_mean (Scenario.frame_of TwoMoods.world)
  = Ok [(Str "Fear", Num (qz 1 / qz 2)%Qc); (Str "Greed", Num (qz 1 / qz 2)%Qc)].
Proof. reflexivity. Qed.

(** ** The overall rate from the rates by sentiment *)








(** ** The order of dates *)










(** ** Prefixes *)




(** ** The cumulative series at the end of a day *)




